(** * extract_questionnaires.py: batch conversion of .docx files to text

    A shallow embedding of [src/extract_questionnaires.py].  Python strings
    are sequences of Unicode code points; the file system and the console
    are threaded through a small state-and-exception monad, because the
    script's [try]/[except] keeps every effect made before the exception. *)

From Stdlib Require Import String Ascii.
From stdpp Require Import gmap list fin_maps.

Local Open Scope N_scope.
Local Open Scope list_scope.

(** ** Python strings *)

(** A [str] is a sequence of code points. *)
Abbreviation str := (list N).

(** An ASCII literal, as written in the source. *)
Definition lit (s : string) : str :=
  List.map N_of_ascii (list_ascii_of_string s).

(** The line feed, written [\n] in the source. *)
Definition nl : str := [10].

Module Py.

(** [str.isspace] on one code point: the code points CPython lists in
    [_PyUnicode_IsWhitespace]. *)
Definition isspace (c : N) : bool :=
  ((9 <=? c) && (c <=? 13)) || ((28 <=? c) && (c <=? 32))
  || (c =? 133) || (c =? 160) || (c =? 5760)
  || ((8192 <=? c) && (c <=? 8202))
  || (c =? 8232) || (c =? 8233) || (c =? 8239) || (c =? 8287)
  || (c =? 12288).

(** [s.lstrip()]: drop the leading white space. *)
Fixpoint lstrip (s : str) : str :=
  match s with
  | [] => []
  | c :: s' => if isspace c then lstrip s' else s
  end.

(** [s.rstrip()]: drop the trailing white space. *)
Definition rstrip (s : str) : str := rev (lstrip (rev s)).

(** [s.strip()]: CPython's [do_strip] advances the left index over white
    space, then the right index down to the left one. *)
Definition strip (s : str) : str := rstrip (lstrip s).

(** [s.startswith(p)]. *)
Fixpoint startswith (p s : str) : bool :=
  match p, s with
  | [], _ => true
  | _ :: _, [] => false
  | a :: p', b :: s' => (a =? b) && startswith p' s'
  end.

(** [s.endswith(p)]. *)
Definition endswith (p s : str) : bool := startswith (rev p) (rev s).

(** [sep.join(l)]. *)
Fixpoint join (sep : str) (l : list str) : str :=
  match l with
  | [] => []
  | [x] => x
  | x :: l' => x ++ sep ++ join sep l'
  end.

(** The scan of [s.replace(old, new)] for a non-empty [old]: occurrences
    are found left to right and do not overlap; [skip] counts the code
    points of the occurrence just replaced that are still to be passed. *)
Fixpoint replace_from (old new : str) (skip : nat) (s : str) : str :=
  match s with
  | [] => []
  | c :: s' =>
      match skip with
      | S k => replace_from old new k s'
      | O =>
          if startswith old s
          then new ++ replace_from old new (length old - 1) s'
          else c :: replace_from old new 0 s'
      end
  end.

(** [s.replace(old, new)]: every occurrence is replaced; an empty [old]
    matches before every code point and at the end. *)
Definition replace (old new s : str) : str :=
  match old with
  | [] => new ++ flat_map (fun c => c :: new) s
  | _ :: _ => replace_from old new 0 s
  end.

(** [old in s]: [old] occurs in [s] as a substring. *)
Fixpoint contains (old s : str) : bool :=
  startswith old s ||
  match s with
  | [] => false
  | _ :: s' => contains old s'
  end.

(** The truth value of a string in a condition: non-empty. *)
Definition truthy (s : str) : bool :=
  match s with
  | [] => false
  | _ :: _ => true
  end.

End Py.


(** ** Documents, exceptions and the outside world *)

(** What the script reads of a [docx.Document]: the paragraph texts, and
    for each table its rows, for each row its cell texts. *)
Record document := {
  paragraphs : list str;
  tables : list (list (list str))
}.

(** An instance of [Exception], the class the guard of line 46 catches; the
    script only formats it, with [str(e)]. *)
Inductive Exception := Exc (description : str).

Definition str_of (e : Exception) : str :=
  match e with Exc d => d end.

(** The library and system calls of the script, as the environment answers
    them: each either raises or returns.  A write or a close that raises
    also says how much of the text given to [write] so far has reached the
    file: writes are buffered, so that is any beginning of that text. *)
Record World := {
  (** [os.makedirs(path, exist_ok=True)] *)
  makedirs_exc : str -> option Exception;
  (** [os.listdir(path)] *)
  listdir : str -> Exception + list str;
  (** [docx.Document(path)] *)
  Document : str -> Exception + document;
  (** [open(path, 'w', encoding='utf-8')] *)
  open_exc : str -> option Exception;
  (** the [k]-th [f.write] on the file opened at [path] *)
  write_exc : str -> nat -> option (Exception * nat);
  (** the close of the file opened at [path], which flushes *)
  close_exc : str -> option (Exception * nat);
  (** [print(line)] *)
  print_exc : str -> option Exception
}.

(** The text of the files written (path to text; the bytes on disk are the
    UTF-8 encoding of the text) and the strings printed.  The script makes
    directories and reads files too; their state is not kept here. *)
Record State := {
  fs : gmap str str;
  console : list str
}.

(** ** A state monad with exceptions that keep the state *)

Definition M (A : Type) : Type := State -> (Exception + A) * State.

Definition ret {A} (a : A) : M A := fun st => (inr a, st).

Definition raise {A} (e : Exception) : M A := fun st => (inl e, st).

Definition bind {A B} (m : M A) (k : A -> M B) : M B :=
  fun st =>
    match m st with
    | (inl e, st') => (inl e, st')
    | (inr a, st') => k a st'
    end.

(** [try: body  except Exception as e: handler e]. *)
Definition try_except {A} (body : M A) (handler : Exception -> M A) : M A :=
  fun st =>
    match body st with
    | (inl e, st') => handler e st'
    | (inr a, st') => (inr a, st')
    end.

Declare Scope py_scope.
Delimit Scope py_scope with py.
Notation "x <- m ;; k" := (bind m (fun x => k))
  (at level 100, m at next level, k at level 200, right associativity) : py_scope.
Notation "m ;; k" := (bind m (fun _ => k))
  (at level 100, k at level 200, right associativity) : py_scope.
Local Open Scope py_scope.

(** A call that raises or returns without touching the state. *)
Definition call {A} (r : Exception + A) : M A := fun st => (r, st).

Definition check (r : option Exception) : M unit :=
  match r with
  | Some e => raise e
  | None => ret tt
  end.

(** [print(line)]: the line is printed, or the call raises and nothing
    is. *)
Definition print (W : World) (line : str) : M unit :=
  check (print_exc W line) ;;
  fun st => (inr tt, {| fs := fs st; console := console st ++ [line] |}).

(** Opening for writing creates the file, or truncates it. *)
Definition open_w (W : World) (path : str) : M unit :=
  check (open_exc W path) ;;
  fun st => (inr tt, {| fs := <[path := []]> (fs st); console := console st |}).

(** [f.write(s)]: the file's text grows by [s]; a write that raises
    leaves a beginning of the text given so far, [s] included. *)
Definition f_write (W : World) (path : str) (k : nat) (s : str) : M unit :=
  fun st =>
    match write_exc W path k with
    | Some (exc, n) =>
        (inl exc, {| fs := alter (fun old => take n (old ++ s)) path (fs st);
                     console := console st |})
    | None =>
        (inr tt, {| fs := alter (fun old => old ++ s) path (fs st);
                    console := console st |})
    end.

(** The close of the file: a close that raises leaves a beginning of the
    text. *)
Definition f_close (W : World) (path : str) : M unit :=
  fun st =>
    match close_exc W path with
    | Some (exc, n) =>
        (inl exc, {| fs := alter (take n) path (fs st);
                     console := console st |})
    | None => (inr tt, st)
    end.

(** [with open(path, 'w', ...) as f: body]: the file is closed when the
    block is left, by its end or by an exception; an exception of the close
    takes the place of the one that left the body. *)
Definition with_open (W : World) (path : str) (body : M unit) : M unit :=
  open_w W path ;;
  fun st =>
    match body st with
    | (inl exc, st') =>
        match f_close W path st' with
        | (inl exc', st'') => (inl exc', st'')
        | (inr _, st'') => (inl exc, st'')
        end
    | (inr _, st') => f_close W path st'
    end.

(** [for x in l: body x]. *)
Fixpoint for_each {A} (l : list A) (body : A -> M unit) : M unit :=
  match l with
  | [] => ret tt
  | x :: l' => body x ;; for_each l' body
  end.

(** ** The script *)

Definition questionnaires_dir : str := lit "C:\Users\rinai\stat-q\src\Questionnaires".
Definition output_dir : str := lit "C:\Users\rinai\stat-q\extracted_questionnaires".

(** [os.path.join(d, name)] for a directory without a trailing separator
    and a plain entry name. *)
Definition path_join (d name : str) : str := d ++ lit "\" ++ name.

(** Lines 20-23: the paragraphs loop. *)
Definition full_text (doc : document) : list str :=
  fold_left
    (fun full_text para =>
       if Py.truthy (Py.strip para) then full_text ++ [Py.strip para]
       else full_text)
    (paragraphs doc) [].

(** Lines 29-31: the cells of one row. *)
Definition row_text (cells : list str) : list str :=
  fold_left (fun row_text cell => row_text ++ [Py.strip cell]) cells [].

(** Lines 26-32: the tables loop. *)
Definition tables_text (doc : document) : list str :=
  fold_left
    (fun tables_text table =>
       fold_left
         (fun tables_text row =>
            tables_text ++ [Py.join (lit " | ") (row_text row)])
         table tables_text)
    (tables doc) [].

(** Line 35. *)
Definition output_filename (docx_file : str) : str :=
  Py.replace (lit ".docx") (lit ".txt") docx_file.

Definition output_path (docx_file : str) : str :=
  path_join output_dir (output_filename docx_file).

(** Lines 38-42: the [with] block and its four writes. *)
Definition write_output (W : World) (path : str) (doc : document) : M unit :=
  with_open W path
    (f_write W path 0 (lit "=== PARAGRAPHS ===" ++ nl) ;;
     f_write W path 1 (Py.join nl (full_text doc)) ;;
     f_write W path 2 (nl ++ nl ++ lit "=== TABLES ===" ++ nl) ;;
     f_write W path 3 (Py.join nl (tables_text doc))).

Definition ok_line (docx_file : str) : str :=
  lit "[OK] Extracted: " ++ docx_file.

Definition error_line (docx_file : str) (e : Exception) : str :=
  lit "[ERROR] Error extracting " ++ docx_file ++ lit ": " ++ str_of e.

(** Lines 14-47: the body of the main loop. *)
Definition process_file (W : World) (docx_file : str) : M unit :=
  let file_path := path_join questionnaires_dir docx_file in
  try_except
    (doc <- call (Document W file_path) ;;
     write_output W (output_path docx_file) doc ;;
     print W (ok_line docx_file))
    (fun e => print W (error_line docx_file e)).

(** Line 11. *)
Definition docx_files (entries : list str) : list str :=
  List.filter (Py.endswith (lit ".docx")) entries.

Definition summary_line : str :=
  nl ++ lit "All extracted files saved to: " ++ output_dir.

(** The whole script. *)
Definition script (W : World) : M unit :=
  check (makedirs_exc W output_dir) ;;
  entries <- call (listdir W questionnaires_dir) ;;
  for_each (docx_files entries) (process_file W) ;;
  print W summary_line.

(** The text the script writes for a document. *)
Definition file_text (doc : document) : str :=
  (lit "=== PARAGRAPHS ===" ++ nl) ++ Py.join nl (full_text doc)
  ++ (nl ++ nl ++ lit "=== TABLES ===" ++ nl) ++ Py.join nl (tables_text doc).

(** The four strings of the [with] block, in the order written. *)
Definition pieces (doc : document) : list str :=
  [ lit "=== PARAGRAPHS ===" ++ nl;
    Py.join nl (full_text doc);
    nl ++ nl ++ lit "=== TABLES ===" ++ nl;
    Py.join nl (tables_text doc) ].

(** ** Notions used in the statements *)

(** What a sequence of writes, numbered from [k], leaves of the text
    [acc] given before it and of their own strings, and how it ends. *)
Fixpoint write_all (W : World) (path : str) (k : nat) (ps : list str)
    (acc : str) : (Exception + unit) * str :=
  match ps with
  | [] => (inr tt, acc)
  | s :: ps' =>
      match write_exc W path k with
      | Some (exc, n) => (inl exc, take n (acc ++ s))
      | None => write_all W path (S k) ps' (acc ++ s)
      end
  end.

(** How the [with] block ends once the file is open, and the text it
    leaves in the file. *)
Definition block_result (W : World) (path : str) (doc : document)
    : (Exception + unit) * str :=
  let r := write_all W path 0 (pieces doc) [] in
  match close_exc W path with
  | Some (exc, n) => (inl exc, take n (snd r))
  | None => r
  end.

Definition is_ok_line (line : str) : bool := Py.startswith (lit "[OK]") line.

Definition is_error_line (line : str) : bool := Py.startswith (lit "[ERROR]") line.

(** The status line of an entry: its success line or one of its error
    lines. *)
Definition status_of (docx_file line : str) : Prop :=
  line = ok_line docx_file ∨ ∃ exc, line = error_line docx_file exc.

(** The same world with another content of the source directory. *)
Definition with_listing (W : World) (entries : list str) : World :=
  {| makedirs_exc := makedirs_exc W;
     listdir := fun path =>
       if decide (path = questionnaires_dir) then inr entries else listdir W path;
     Document := Document W;
     open_exc := open_exc W;
     write_exc := write_exc W;
     close_exc := close_exc W;
     print_exc := print_exc W |}.

(** [t] is [s] whitespace-trimmed: [s] is [t] between two runs of white
    space, and [t] neither starts nor ends with white space. *)
Definition trimmed_of (s t : str) : Prop :=
  ∃ l r, s = l ++ t ++ r
    ∧ forallb Py.isspace l = true ∧ forallb Py.isspace r = true
    ∧ (∀ c, head t = Some c → Py.isspace c = false)
    ∧ (∀ c, last t = Some c → Py.isspace c = false).

(** ** Sample environments *)

Definition no_space : Exception := Exc (lit "[Errno 28] No space left on device").

Definition bad_zip : Exception := Exc (lit "File is not a zip file").

Definition cannot_encode : Exception :=
  Exc (lit "'latin-1' codec can't encode character").

Definition survey : document :=
  {| paragraphs := [lit " Q1 "; lit "   "; lit "Q2"];
     tables := [[[lit "a "; lit " b"; lit "c"]]; [[lit "x"]]] |}.

Definition survey_b : document :=
  {| paragraphs := [lit "other"]; tables := [] |}.

(** A file name with a snowman in it. *)
Definition snowman : str := lit "snow" ++ [9731] ++ lit ".docx".

Definition fresh : State := {| fs := ∅; console := [] |}.

(** A source directory with a broken document first, an unrelated file,
    and a good document; nothing fails on the output side. *)
Definition plain_world : World :=
  {| makedirs_exc := fun _ => None;
     listdir := fun _ => inr [lit "broken.docx"; lit "notes.txt"; lit "Survey1.docx"];
     Document := fun path =>
       if decide (path = path_join questionnaires_dir (lit "Survey1.docx"))
       then inr survey else inl bad_zip;
     open_exc := fun _ => None;
     write_exc := fun _ _ => None;
     close_exc := fun _ => None;
     print_exc := fun _ => None |}.

(** A disk that fills up at the third write of a file: of the 24 code
    points given before, and of that write's own, 25 are in the file. *)
Definition disk_full_world : World :=
  {| makedirs_exc := fun _ => None;
     listdir := fun _ => inr [lit "Survey1.docx"];
     Document := fun _ => inr survey;
     open_exc := fun _ => None;
     write_exc := fun _ k =>
       if decide (k = 2%nat) then Some (no_space, 25%nat) else None;
     close_exc := fun _ => None;
     print_exc := fun _ => None |}.

(** A full disk met only when the file is closed: the four writes return,
    the flush of the close raises, and nothing is in the file. *)
Definition flush_fail_world : World :=
  {| makedirs_exc := fun _ => None;
     listdir := fun _ => inr [lit "Survey1.docx"];
     Document := fun _ => inr survey;
     open_exc := fun _ => None;
     write_exc := fun _ _ => None;
     close_exc := fun _ => Some (no_space, 0%nat);
     print_exc := fun _ => None |}.

(** A console that encodes Latin-1 only; the source directory holds a good
    document and a broken one with a snowman in its name. *)
Definition latin1_world : World :=
  {| makedirs_exc := fun _ => None;
     listdir := fun _ => inr [lit "Survey1.docx"; snowman];
     Document := fun path =>
       if decide (path = path_join questionnaires_dir (lit "Survey1.docx"))
       then inr survey else inl bad_zip;
     open_exc := fun _ => None;
     write_exc := fun _ _ => None;
     close_exc := fun _ => None;
     print_exc := fun line =>
       if existsb (fun c => 255 <? c) line then Some cannot_encode else None |}.

(** Two good documents whose names derive the same output name. *)
Definition collision_world : World :=
  {| makedirs_exc := fun _ => None;
     listdir := fun _ => inr [lit "a.docx.docx"; lit "a.txt.docx"];
     Document := fun path =>
       if decide (path = path_join questionnaires_dir (lit "a.docx.docx"))
       then inr survey else inr survey_b;
     open_exc := fun _ => None;
     write_exc := fun _ _ => None;
     close_exc := fun _ => None;
     print_exc := fun _ => None |}.

(** A source directory that holds no good document. *)
Definition all_broken_world : World :=
  with_listing plain_world [lit "broken.docx"; lit "notes.txt"].

(** Both sides are concatenations of the same strings. *)
Ltac flatten_text :=
  cbn [pieces take concat file_text app];
  rewrite ?app_nil_r, <- ?app_assoc; reflexivity.

(** * Properties *)

(** ** Strings *)

Section StringFacts.

Implicit Types (s p old new : str) (c : N).

Lemma startswith_app p r : Py.startswith p (p ++ r) = true.
Proof.
  induction p as [|a p IH]; [done|].
  cbn [Py.startswith app]. by rewrite N.eqb_refl, IH.
Qed.

Lemma startswith_inv p s :
  Py.startswith p s = true → ∃ r, s = p ++ r.
Proof.
  revert s. induction p as [|a p IH]; intros s H.
  - by exists s.
  - destruct s as [|b s]; [done|].
    cbn [Py.startswith] in H. apply andb_prop in H as [Hab Hps].
    apply N.eqb_eq in Hab as ->.
    destruct (IH _ Hps) as [r ->]. by exists r.
Qed.

Lemma endswith_app stem p : Py.endswith p (stem ++ p) = true.
Proof. unfold Py.endswith. rewrite rev_app_distr. apply startswith_app. Qed.

Lemma endswith_inv p s :
  Py.endswith p s = true → ∃ stem, s = stem ++ p.
Proof.
  unfold Py.endswith. intros H.
  destruct (startswith_inv _ _ H) as [r Hr].
  exists (rev r).
  rewrite <- (rev_involutive s), Hr, rev_app_distr.
  by rewrite rev_involutive.
Qed.

(** Passing the rest of a replaced occurrence is dropping it. *)
Lemma replace_from_skip old new k s :
  Py.replace_from old new k s = Py.replace_from old new 0 (drop k s).
Proof.
  revert k. induction s as [|c s IH]; intros [|k]; try done.
  cbn [Py.replace_from drop]. apply IH.
Qed.

Lemma replace_from_hit old new r :
  old ≠ [] →
  Py.replace_from old new 0 (old ++ r) = new ++ Py.replace_from old new 0 r.
Proof.
  intros Hne. destruct old as [|a old]; [done|].
  change ((a :: old) ++ r) with (a :: (old ++ r)).
  cbn [Py.replace_from].
  change (a :: (old ++ r)) with ((a :: old) ++ r).
  rewrite startswith_app, replace_from_skip.
  replace (length (a :: old) - 1)%nat with (length old) by (simpl; lia).
  by rewrite drop_app_length.
Qed.

Lemma replace_from_miss old new c s :
  Py.startswith old (c :: s) = false →
  Py.replace_from old new 0 (c :: s) = c :: Py.replace_from old new 0 s.
Proof. intros H. cbn [Py.replace_from]. by rewrite H. Qed.

Lemma contains_cons old c s :
  Py.contains old (c :: s) = false →
  Py.startswith old (c :: s) = false ∧ Py.contains old s = false.
Proof. cbn [Py.contains]. apply orb_false_elim. Qed.

Lemma lstrip_split s :
  ∃ l, s = l ++ Py.lstrip s ∧ forallb Py.isspace l = true.
Proof.
  induction s as [|c s (l & Hs & Hl)]; [by exists []|].
  cbn [Py.lstrip]. destruct (Py.isspace c) eqn:Hc.
  - exists (c :: l). split; [by rewrite Hs at 1|].
    cbn [forallb]. by rewrite Hc, Hl.
  - by exists [].
Qed.

Lemma lstrip_head s c : head (Py.lstrip s) = Some c → Py.isspace c = false.
Proof.
  induction s as [|a s IH]; [done|].
  cbn [Py.lstrip]. destruct (Py.isspace a) eqn:Ha; [done|].
  cbn. by intros [= <-].
Qed.

Lemma lstrip_space l s :
  forallb Py.isspace l = true → Py.lstrip (l ++ s) = Py.lstrip s.
Proof.
  induction l as [|a l IH]; [done|].
  cbn [forallb app Py.lstrip]. intros [Ha Hl]%andb_prop.
  rewrite Ha. by apply IH.
Qed.

Lemma lstrip_solid s :
  (∀ c, head s = Some c → Py.isspace c = false) → Py.lstrip s = s.
Proof.
  destruct s as [|a s]; [done|]. intros H.
  cbn [Py.lstrip]. by rewrite (H a).
Qed.

Lemma forallb_rev (f : N → bool) l : forallb f (rev l) = forallb f l.
Proof.
  induction l as [|a l IH]; [done|].
  cbn [rev forallb]. rewrite forallb_app, IH. cbn. 
  rewrite andb_true_r. apply andb_comm.
Qed.

Lemma head_rev (s : str) : head (rev s) = last s.
Proof.
  induction s as [|a s IH]; [done|].
  cbn [rev]. rewrite last_cons, <- IH.
  by destruct (rev s).
Qed.

Lemma rstrip_split s :
  ∃ r, s = Py.rstrip s ++ r ∧ forallb Py.isspace r = true.
Proof.
  unfold Py.rstrip. destruct (lstrip_split (rev s)) as (l & Hs & Hl).
  exists (rev l). split; [|by rewrite forallb_rev].
  rewrite <- rev_app_distr, <- Hs. by rewrite rev_involutive.
Qed.

Lemma rstrip_last s c : last (Py.rstrip s) = Some c → Py.isspace c = false.
Proof.
  unfold Py.rstrip. rewrite <- head_rev, rev_involutive. apply lstrip_head.
Qed.

(** The right strip leaves a first code point that is not white space in
    place. *)
Lemma rstrip_head s c :
  (∀ a, head s = Some a → Py.isspace a = false) →
  head (Py.rstrip s) = Some c → Py.isspace c = false.
Proof.
  intros Hs. destruct (rstrip_split s) as (r & Hr & _).
  destruct (Py.rstrip s) as [|a t] eqn:E; [done|].
  cbn. intros [= <-]. apply Hs. by rewrite Hr.
Qed.

Lemma strip_trimmed s : trimmed_of s (Py.strip s).
Proof.
  unfold Py.strip.
  destruct (lstrip_split s) as (l & Hl & Hlw).
  destruct (rstrip_split (Py.lstrip s)) as (r & Hr & Hrw).
  exists l, r. repeat split; try done.
  - by rewrite <- Hr.
  - intros c. apply rstrip_head. apply lstrip_head.
  - apply rstrip_last.
Qed.

Lemma strip_space s : forallb Py.isspace s = true → Py.strip s = [].
Proof.
  intros H. unfold Py.strip.
  rewrite <- (app_nil_r s), lstrip_space by done. done.
Qed.

(** Trimming has one result. *)
Lemma trimmed_of_strip s t : trimmed_of s t → t = Py.strip s.
Proof.
  intros (l & r & -> & Hl & Hr & Hh & Hla).
  unfold Py.strip. rewrite lstrip_space by done.
  destruct t as [|a t].
  - cbn [app]. rewrite <- (app_nil_r r), lstrip_space by done. done.
  - rewrite lstrip_solid by (cbn; intros c [= <-]; by apply Hh).
    unfold Py.rstrip. rewrite rev_app_distr, lstrip_space
      by by rewrite forallb_rev.
    rewrite lstrip_solid; [by rewrite rev_involutive|].
    intros c. rewrite head_rev. apply Hla.
Qed.

(** A joined text ends with its last item: nothing follows it. *)
Lemma join_last (sep : str) (l : list str) (x : str) :
  ∃ pre, Py.join sep (l ++ [x]) = pre ++ x.
Proof.
  induction l as [|y l [pre IH]]; [by exists []|].
  exists (y ++ sep ++ pre).
  change ((y :: l) ++ [x]) with (y :: (l ++ [x])).
  destruct (l ++ [x]) as [|z t] eqn:E; [by destruct l|].
  cbn [Py.join]. cbn [Py.join] in IH. rewrite IH.
  by rewrite <- !app_assoc.
Qed.

End StringFacts.

(** ** The derived file name *)

Lemma docx_lit : lit ".docx" = [46; 100; 111; 99; 120].
Proof. reflexivity. Qed.

(** No proper suffix of [.docx] is a prefix of it, so an occurrence that
    starts before a given one lies wholly before it. *)
Lemma docx_no_border (a rest : str) :
  Py.startswith (lit ".docx") (a ++ lit ".docx" ++ rest) = true →
  a = [] ∨ Py.startswith (lit ".docx") a = true.
Proof.
  rewrite docx_lit.
  destruct a as [|x1 [|x2 [|x3 [|x4 [|x5 a]]]]];
    cbn [Py.startswith app]; intros H; auto;
    repeat (apply andb_prop in H as [? H]); discriminate.
Qed.

Lemma output_filename_scan (s : str) :
  output_filename s = Py.replace_from (lit ".docx") (lit ".txt") 0 s.
Proof. reflexivity. Qed.

(** Up to and including the first occurrence. *)
Lemma output_filename_first (stem rest : str) :
  Py.contains (lit ".docx") stem = false →
  output_filename (stem ++ lit ".docx" ++ rest)
  = stem ++ lit ".txt" ++ output_filename rest.
Proof.
  rewrite !output_filename_scan.
  induction stem as [|c stem IH]; intros Hc.
  - cbn [app]. by apply replace_from_hit.
  - apply contains_cons in Hc as [Hs Hc].
    change ((c :: stem) ++ lit ".docx" ++ rest)
      with (c :: (stem ++ lit ".docx" ++ rest)).
    rewrite replace_from_miss; [by rewrite IH|].
    apply not_true_is_false. intros E.
    apply (docx_no_border (c :: stem)) in E as [?|E]; [done|congruence].
Qed.

(** Where [.docx] occurs only at the end, the suffix is what changes. *)
Lemma output_filename_suffix (stem : str) :
  Py.contains (lit ".docx") stem = false →
  output_filename (stem ++ lit ".docx") = stem ++ lit ".txt".
Proof.
  intros H. rewrite <- (app_nil_r (lit ".docx")).
  by rewrite output_filename_first.
Qed.

Lemma output_filename_suffix_inj (stem1 stem2 : str) :
  Py.contains (lit ".docx") stem1 = false →
  Py.contains (lit ".docx") stem2 = false →
  output_filename (stem1 ++ lit ".docx") = output_filename (stem2 ++ lit ".docx") →
  stem1 = stem2.
Proof.
  intros H1 H2. rewrite !output_filename_suffix by done.
  by intros ?%app_inv_tail.
Qed.

(** ** Extraction of paragraphs and tables *)

Section Loops.

Context {A B : Type}.

(** A loop that appends one item per element builds the mapped list. *)
Lemma fold_left_snoc (g : A → B) (l : list A) (acc : list B) :
  fold_left (fun acc x => acc ++ [g x]) l acc = acc ++ List.map g l.
Proof.
  revert acc. induction l as [|x l IH]; intros acc; cbn [fold_left List.map].
  - by rewrite app_nil_r.
  - by rewrite IH, <- app_assoc.
Qed.

(** The same one level up: a loop over lists of elements. *)
Lemma fold_left_snoc_nested (g : A → B) (ll : list (list A)) (acc : list B) :
  fold_left (fun acc l => fold_left (fun acc x => acc ++ [g x]) l acc) ll acc
  = acc ++ List.map g (concat ll).
Proof.
  revert acc. induction ll as [|l ll IH]; intros acc; cbn [fold_left concat].
  - by rewrite app_nil_r.
  - by rewrite IH, fold_left_snoc, map_app, app_assoc.
Qed.

End Loops.

Lemma full_text_loop (ps : list str) (acc : list str) :
  fold_left
    (fun full_text para =>
       if Py.truthy (Py.strip para) then full_text ++ [Py.strip para]
       else full_text) ps acc
  = acc ++ List.filter Py.truthy (List.map Py.strip ps).
Proof.
  revert acc.
  induction ps as [|p ps IH]; intros acc; cbn [fold_left List.map List.filter].
  - by rewrite app_nil_r.
  - rewrite IH. destruct (Py.truthy (Py.strip p)); [|done].
    by rewrite <- app_assoc.
Qed.

Lemma full_text_filter (doc : document) :
  full_text doc = List.filter Py.truthy (List.map Py.strip (paragraphs doc)).
Proof. unfold full_text. by rewrite full_text_loop. Qed.

Lemma row_text_map (cells : list str) : row_text cells = List.map Py.strip cells.
Proof. unfold row_text. by rewrite fold_left_snoc. Qed.

Lemma tables_text_map (doc : document) :
  tables_text doc
  = List.map (fun row => Py.join (lit " | ") (List.map Py.strip row))
      (concat (tables doc)).
Proof.
  unfold tables_text.
  rewrite (fold_left_snoc_nested (fun row => Py.join (lit " | ") (row_text row))).
  cbn [app]. apply map_ext. intros row. by rewrite row_text_map.
Qed.

Lemma strip_all_trimmed (ps : list str) :
  Forall2 trimmed_of ps (List.map Py.strip ps).
Proof.
  induction ps as [|p ps IH]; constructor; [apply strip_trimmed | done].
Qed.

Lemma filter_truthy_space (ps : list str) :
  Forall (λ p, forallb Py.isspace p = true) ps →
  List.filter Py.truthy (List.map Py.strip ps) = [].
Proof.
  induction 1 as [|p ps Hp _ IH]; [done|].
  cbn [List.map List.filter]. by rewrite (strip_space p Hp).
Qed.

Lemma filter_truthy_nonempty (ts : list str) :
  List.filter Py.truthy ts = filter (λ t : str, t ≠ []) ts.
Proof.
  induction ts as [|t ts IH]; [done|].
  cbn [List.filter]. rewrite filter_cons, <- IH.
  destruct t; cbn [Py.truthy]; by case_decide.
Qed.

(** C4: the extracted paragraph sequence is the document's paragraphs in
    order, each whitespace-trimmed, without those whose trimmed text is
    empty; a document of whitespace-only paragraphs has an empty paragraphs
    section; of [" Q1 "], ["   "], ["Q2"] the texts [Q1] and [Q2] are
    kept. *)
Theorem full_text_paragraphs (doc : document) :
  (∃ ts, Forall2 trimmed_of (paragraphs doc) ts
         ∧ full_text doc = filter (λ t : str, t ≠ []) ts)
  ∧ (Forall (λ p, forallb Py.isspace p = true) (paragraphs doc) →
     full_text doc = [] ∧ Py.join nl (full_text doc) = [])
  ∧ full_text {| paragraphs := [lit " Q1 "; lit "   "; lit "Q2"];
                 tables := tables doc |}
    = [lit "Q1"; lit "Q2"].
Proof.
  split; [|split].
  - exists (List.map Py.strip (paragraphs doc)).
    split; [apply strip_all_trimmed|].
    by rewrite full_text_filter, filter_truthy_nonempty.
  - intros H. rewrite full_text_filter, filter_truthy_space by done. done.
  - reflexivity.
Qed.

Lemma full_text_paragraphs_witness :
  let doc := {| paragraphs := [lit "   "; [9; 160; 12288]; []]; tables := [] |} in
  full_text doc = [] ∧ Py.join nl (full_text doc) = [].
Proof.
  intros doc. apply (full_text_paragraphs doc).
  repeat constructor.
Defined.

(** C5: the table content is one flat sequence of row-lines, over the
    tables in order and their rows in order; a row-line is the row's
    whitespace-trimmed cell texts joined by [" | "]. *)
Theorem tables_text_rows (doc : document) :
  (∃ rows, Forall2 (Forall2 trimmed_of) (concat (tables doc)) rows
           ∧ tables_text doc = List.map (Py.join (lit " | ")) rows)
  ∧ tables_text {| paragraphs := [];
                   tables := [[[lit "a "; lit " b"; lit "c"]]] |}
    = [lit "a | b | c"].
Proof.
  split; [|reflexivity].
  exists (List.map (List.map Py.strip) (concat (tables doc))). split.
  - induction (concat (tables doc)) as [|row rows IH]; constructor;
      [apply strip_all_trimmed | done].
  - rewrite tables_text_map. by rewrite map_map.
Qed.

(** ** The monad's primitives *)

Lemma state_eta (st : State) :
  {| fs := ∅ ∪ fs st; console := console st ++ [] |} = st.
Proof. destruct st. cbn [fs console]. by rewrite (left_id ∅ (∪)), app_nil_r. Qed.

Lemma print_run (W : World) (line : str) (st : State) :
  print W line st
  = match print_exc W line with
    | Some exc => (inl exc, st)
    | None => (inr tt, {| fs := fs st; console := console st ++ [line] |})
    end.
Proof. unfold print, bind. by destruct (print_exc W line). Qed.

Lemma print_fs (W : World) (line : str) (st : State) :
  fs (snd (print W line st)) = fs st.
Proof. rewrite print_run. by destruct (print_exc W line). Qed.

(** A print appends its line or, raising, nothing; it leaves the files. *)
Lemma print_effect (W : World) (line : str) :
  ∃ (r : Exception + unit) (lines : list str),
    (∀ st, print W line st
           = (r, {| fs := fs st; console := console st ++ lines |}))
    ∧ ((r = inr tt ∧ lines = [line])
       ∨ ∃ exc, r = inl exc ∧ lines = [] ∧ print_exc W line = Some exc).
Proof.
  destruct (print_exc W line) as [exc|] eqn:Hp.
  - exists (inl exc), []. split; [|right; by exists exc].
    intros st. rewrite print_run, Hp. destruct st. cbn [fs console].
    by rewrite app_nil_r.
  - exists (inr tt), [line]. split; [|by left].
    intros st. by rewrite print_run, Hp.
Qed.

(** ** Writing one output file *)

Lemma write_all_prefix (W : World) (path : str) (ps : list str) (k : nat)
    (acc : str) :
  ∃ rest, acc ++ concat ps = snd (write_all W path k ps acc) ++ rest.
Proof.
  revert k acc. induction ps as [|s ps IH]; intros k acc; cbn [write_all concat].
  - by exists [].
  - destruct (write_exc W path k) as [[exc n]|].
    + exists (drop n (acc ++ s) ++ concat ps). cbn [snd].
      by rewrite !app_assoc, take_drop.
    + destruct (IH (S k) (acc ++ s)) as [rest Hrest].
      exists rest. by rewrite <- Hrest, <- app_assoc.
Qed.

Lemma write_all_complete (W : World) (path : str) (ps : list str) (k : nat)
    (acc : str) :
  fst (write_all W path k ps acc) = inr tt →
  snd (write_all W path k ps acc) = acc ++ concat ps.
Proof.
  revert k acc. induction ps as [|s ps IH]; intros k acc; cbn [write_all concat].
  - by rewrite app_nil_r.
  - destruct (write_exc W path k) as [[exc n]|]; [done|].
    intros H. by rewrite (IH _ _ H), <- app_assoc.
Qed.

Lemma file_text_pieces (doc : document) : file_text doc = concat (pieces doc).
Proof. flatten_text. Qed.

(** Whatever fails, the file holds a beginning of the complete text. *)
Lemma block_prefix (W : World) (path : str) (doc : document) :
  ∃ rest, file_text doc = snd (block_result W path doc) ++ rest.
Proof.
  unfold block_result.
  destruct (write_all_prefix W path (pieces doc) 0 []) as [rest Hrest].
  cbn [app] in Hrest. rewrite file_text_pieces, Hrest.
  destruct (close_exc W path) as [[exc n]|]; [|by exists rest].
  exists (drop n (snd (write_all W path 0 (pieces doc) [])) ++ rest).
  cbn [snd]. by rewrite app_assoc, take_drop.
Qed.

(** When the block ends normally the file holds the complete text. *)
Lemma block_complete (W : World) (path : str) (doc : document) :
  fst (block_result W path doc) = inr tt →
  snd (block_result W path doc) = file_text doc.
Proof.
  unfold block_result.
  destruct (close_exc W path) as [[exc n]|]; [done|].
  intros H. by rewrite (write_all_complete _ _ _ _ _ H), file_text_pieces.
Qed.

Lemma block_result_ok (W : World) (path : str) (doc : document) :
  (∀ k : nat, (k < 4)%nat → write_exc W path k = None) →
  close_exc W path = None →
  block_result W path doc = (inr tt, file_text doc).
Proof.
  intros Hk Hc. unfold block_result. rewrite Hc.
  cbn [write_all pieces]. rewrite !Hk by lia. f_equal. flatten_text.
Qed.

(** The [with] block, once the file is open, as the environment's answers
    decide it. *)
Lemma write_output_run (W : World) (path : str) (doc : document) (st : State) :
  open_exc W path = None →
  write_output W path doc st
  = (fst (block_result W path doc),
     {| fs := <[path := snd (block_result W path doc)]> (fs st);
        console := console st |}).
Proof.
  intros Ho.
  unfold write_output, with_open, open_w, f_write, f_close, block_result.
  rewrite Ho. unfold check, bind, ret. cbn [write_all pieces].
  destruct (write_exc W path 0) as [[e0 n0]|];
    [|destruct (write_exc W path 1) as [[e1 n1]|];
      [|destruct (write_exc W path 2) as [[e2 n2]|];
        [|destruct (write_exc W path 3) as [[e3 n3]|]]]];
    destruct (close_exc W path) as [[ec nc]|];
    cbn [fst snd fs console];
    rewrite ?alter_insert_eq; reflexivity.
Qed.

Lemma write_output_open_raises (W : World) (path : str) (doc : document)
    (exc : Exception) (st : State) :
  open_exc W path = Some exc →
  write_output W path doc st = (inl exc, st).
Proof.
  intros Ho. unfold write_output, with_open, open_w. rewrite Ho.
  reflexivity.
Qed.

(** ** One iteration of the main loop *)

(** The iteration, as the environment's answers decide it. *)
Lemma process_file_run (W : World) (e : str) (st : State) :
  process_file W e st
  = match Document W (path_join questionnaires_dir e) with
    | inl exc => print W (error_line e exc) st
    | inr doc =>
        match open_exc W (output_path e) with
        | Some exc => print W (error_line e exc) st
        | None =>
            let st1 :=
              {| fs := <[output_path e :=
                          snd (block_result W (output_path e) doc)]> (fs st);
                 console := console st |} in
            match fst (block_result W (output_path e) doc) with
            | inl exc => print W (error_line e exc) st1
            | inr _ =>
                match print_exc W (ok_line e) with
                | Some exc => print W (error_line e exc) st1
                | None =>
                    (inr tt, {| fs := fs st1;
                                console := console st1 ++ [ok_line e] |})
                end
            end
        end
    end.
Proof.
  unfold process_file, try_except, bind, call.
  destruct (Document W (path_join questionnaires_dir e)) as [exc|doc];
    [done|].
  destruct (open_exc W (output_path e)) as [exc|] eqn:Ho.
  { by rewrite (write_output_open_raises W _ doc exc st Ho). }
  rewrite (write_output_run W _ doc st Ho). cbn zeta.
  destruct (fst (block_result W (output_path e) doc)) as [exc|[]]; [done|].
  rewrite print_run. by destruct (print_exc W (ok_line e)).
Qed.

(** What an iteration does to the files is decided before anything is
    printed. *)
Lemma process_file_fs (W : World) (e : str) (st : State) :
  fs (snd (process_file W e st))
  = match Document W (path_join questionnaires_dir e) with
    | inl _ => fs st
    | inr doc =>
        match open_exc W (output_path e) with
        | Some _ => fs st
        | None =>
            <[output_path e := snd (block_result W (output_path e) doc)]> (fs st)
        end
    end.
Proof.
  rewrite process_file_run.
  destruct (Document W (path_join questionnaires_dir e)) as [exc|doc];
    [apply print_fs|].
  destruct (open_exc W (output_path e)) as [exc|]; [apply print_fs|].
  cbn zeta.
  destruct (fst (block_result W (output_path e) doc)) as [exc|[]];
    [apply print_fs|].
  destruct (print_exc W (ok_line e)); [apply print_fs|done].
Qed.

(** The handler: its line is printed, or its print raises. *)
Lemma handler_effect (W : World) (e : str) (exc0 : Exception) :
  ∃ (r : Exception + unit) (lines : list str),
    (∀ st, print W (error_line e exc0) st
           = (r, {| fs := fs st; console := console st ++ lines |}))
    ∧ (r = inr tt → ∃ line, lines = [line] ∧ status_of e line)
    ∧ (∀ exc, r = inl exc → lines = [] ∧ ∃ line, print_exc W line = Some exc)
    ∧ ((∀ exc, print_exc W (error_line e exc) = None) → r = inr tt).
Proof.
  destruct (print_effect W (error_line e exc0))
    as (r & lines & Hrun & [[-> ->]|(exc & -> & -> & Hexc)]).
  - exists (inr tt), [error_line e exc0].
    split; [done|split; [|split]]; [|done|done].
    intros _. exists (error_line e exc0). split; [done|]. right. by exists exc0.
  - exists (inl exc), []. split; [done|split; [done|split]].
    + intros exc' [= <-]. split; [done|]. by exists (error_line e exc0).
    + intros Hall. by rewrite Hall in Hexc.
Qed.

(** Whatever the environment does, an iteration overrides the files with
    at most one file, whose text does not depend on the state it started
    from, and prints one status line of its entry, unless it ends in an
    exception of a print. *)
Lemma process_file_effect (W : World) (e : str) :
  ∃ (r : Exception + unit) (d : gmap str str) (lines : list str),
    (∀ st, process_file W e st
           = (r, {| fs := d ∪ fs st; console := console st ++ lines |}))
    ∧ (r = inr tt → ∃ line, lines = [line] ∧ status_of e line)
    ∧ (∀ exc, r = inl exc → lines = [] ∧ ∃ line, print_exc W line = Some exc)
    ∧ ((∀ exc, print_exc W (error_line e exc) = None) → r = inr tt).
Proof.
  assert (∀ exc0,
    Document W (path_join questionnaires_dir e) = inl exc0
    ∨ (∃ doc, Document W (path_join questionnaires_dir e) = inr doc
              ∧ open_exc W (output_path e) = Some exc0) →
    ∃ (r : Exception + unit) (d : gmap str str) (lines : list str),
      (∀ st, process_file W e st
             = (r, {| fs := d ∪ fs st; console := console st ++ lines |}))
      ∧ (r = inr tt → ∃ line, lines = [line] ∧ status_of e line)
      ∧ (∀ exc, r = inl exc → lines = [] ∧ ∃ line, print_exc W line = Some exc)
      ∧ ((∀ exc, print_exc W (error_line e exc) = None) → r = inr tt))
    as Hearly.
  { intros exc0 Hcase.
    destruct (handler_effect W e exc0) as (r & lines & Hrun & Hrest).
    exists r, ∅, lines. split; [|done]. intros st.
    rewrite process_file_run.
    destruct Hcase as [->|(doc & -> & ->)]; rewrite Hrun;
      by rewrite (left_id ∅ (∪)). }
  destruct (Document W (path_join questionnaires_dir e)) as [exc0|doc] eqn:Hd.
  { apply (Hearly exc0). by left. }
  destruct (open_exc W (output_path e)) as [exc0|] eqn:Ho.
  { apply (Hearly exc0). right. by exists doc. }
  clear Hearly.
  assert (∀ exc0,
    (∀ st, process_file W e st
           = print W (error_line e exc0)
               {| fs := <[output_path e :=
                           snd (block_result W (output_path e) doc)]> (fs st);
                  console := console st |}) →
    ∃ (r : Exception + unit) (d : gmap str str) (lines : list str),
      (∀ st, process_file W e st
             = (r, {| fs := d ∪ fs st; console := console st ++ lines |}))
      ∧ (r = inr tt → ∃ line, lines = [line] ∧ status_of e line)
      ∧ (∀ exc, r = inl exc → lines = [] ∧ ∃ line, print_exc W line = Some exc)
      ∧ ((∀ exc, print_exc W (error_line e exc) = None) → r = inr tt))
    as Hlate.
  { intros exc0 Hrun0.
    destruct (handler_effect W e exc0) as (r & lines & Hrun & Hrest).
    exists r, {[output_path e := snd (block_result W (output_path e) doc)]},
      lines.
    split; [|done]. intros st. rewrite Hrun0, Hrun. cbn [fs console].
    by rewrite insert_union_singleton_l. }
  destruct (fst (block_result W (output_path e) doc)) as [exc0|[]] eqn:Hb.
  { apply (Hlate exc0). intros st.
    by rewrite process_file_run, Hd, Ho, Hb. }
  destruct (print_exc W (ok_line e)) as [exc0|] eqn:Hp.
  { apply (Hlate exc0). intros st.
    by rewrite process_file_run, Hd, Ho, Hb, Hp. }
  exists (inr tt),
    {[output_path e := snd (block_result W (output_path e) doc)]},
    [ok_line e].
  split; [|split; [|split]]; [| |done|done].
  - intros st. rewrite process_file_run, Hd, Ho, Hb, Hp. cbn [fs console].
    by rewrite insert_union_singleton_l.
  - intros _. exists (ok_line e). split; [done | by left].
Qed.

(** An iteration leaves every path but the output path of its entry. *)
Lemma process_file_frame (W : World) (e : str) (st : State) (p : str) :
  p ≠ output_path e →
  fs (snd (process_file W e st)) !! p = fs st !! p.
Proof.
  intros Hp. rewrite process_file_fs.
  destruct (Document W (path_join questionnaires_dir e)); [done|].
  destruct (open_exc W (output_path e)); [done|].
  by rewrite lookup_insert_ne.
Qed.

(** ** The main loop *)

Lemma for_each_app {A} (body : A → M unit) (l1 l2 : list A) (st : State) :
  for_each (l1 ++ l2) body st
  = match for_each l1 body st with
    | (inl exc, st') => (inl exc, st')
    | (inr _, st') => for_each l2 body st'
    end.
Proof.
  revert st. induction l1 as [|x l1 IH]; intros st; [done|].
  cbn [app for_each]. unfold bind.
  destruct (body x st) as [[exc|[]] st']; [done|]. apply IH.
Qed.

(** Whatever the environment does, the loop writes files whose text does
    not depend on the files already there, and prints the status lines of
    an initial part of its entries: of all of them when it returns; it ends
    in an exception only by a print. *)
Lemma for_each_effect (W : World) (l : list str) :
  ∃ (r : Exception + unit) (D : gmap str str) (lines : list str),
    (∀ st, for_each l (process_file W) st
           = (r, {| fs := D ∪ fs st; console := console st ++ lines |}))
    ∧ (∃ l1 l2, l = l1 ++ l2 ∧ Forall2 status_of l1 lines
                ∧ (r = inr tt → l2 = []))
    ∧ (∀ exc, r = inl exc → ∃ line, print_exc W line = Some exc)
    ∧ ((∀ line, print_exc W line = None) → r = inr tt).
Proof.
  induction l as [|e l (r & D & lines & Hrun & (l1 & l2 & Hl & Hs & Hl2) & Hexc & Hok)].
  - exists (inr tt), ∅, []. split; [|split; [|split]]; [| |done|done].
    + intros st. by rewrite state_eta.
    + exists [], []. split; [done|]. split; [constructor|done].
  - destruct (process_file_effect W e)
      as (r1 & d & lines1 & Hrun1 & Hline1 & Hexc1 & Hok1).
    destruct r1 as [exc1|[]].
    + destruct (Hexc1 exc1 eq_refl) as [-> Hp].
      exists (inl exc1), d, []. split; [|split; [|split]].
      * intros st. cbn [for_each]. unfold bind. by rewrite Hrun1.
      * exists [], (e :: l). split; [done|]. split; [constructor|done].
      * by intros exc [= <-].
      * intros Hall. destruct Hp as [line Hp]. by rewrite Hall in Hp.
    + destruct (Hline1 eq_refl) as (line & -> & Hline).
      exists r, (D ∪ d), (line :: lines). split; [|split; [|split]].
      * intros st. cbn [for_each]. unfold bind. rewrite Hrun1, Hrun.
        cbn [fs console]. by rewrite (assoc_L (∪)), <- app_assoc.
      * exists (e :: l1), l2. rewrite Hl. split; [done|].
        split; [by constructor|done].
      * done.
      * done.
Qed.

Lemma for_each_frame (W : World) (l : list str) (st : State) (p : str) :
  (∀ e, In e l → p ≠ output_path e) →
  fs (snd (for_each l (process_file W) st)) !! p = fs st !! p.
Proof.
  revert st. induction l as [|e l IH]; intros st Hp; [done|].
  pose proof (process_file_frame W e st p) as Hf.
  cbn [for_each]. unfold bind.
  destruct (process_file W e st) as [[exc|[]] st']; cbn [snd] in *.
  - apply Hf, Hp. by left.
  - rewrite IH; [apply Hf, Hp; by left|].
    intros e' He'. apply Hp. by right.
Qed.

Lemma script_loop (W : World) (entries : list str) (st : State) :
  makedirs_exc W output_dir = None →
  listdir W questionnaires_dir = inr entries →
  script W st
  = (for_each (docx_files entries) (process_file W) ;; print W summary_line) st.
Proof. intros Hm Hl. unfold script, bind, call. by rewrite Hm, Hl. Qed.

(** A run overrides the files it writes and appends what it prints; what it
    writes and prints does not depend on the files already there. *)
Lemma script_effect (W : World) :
  ∃ (r : Exception + unit) (D : gmap str str) (lines : list str),
    ∀ st, script W st
          = (r, {| fs := D ∪ fs st; console := console st ++ lines |}).
Proof.
  destruct (makedirs_exc W output_dir) as [exc|] eqn:Hm.
  { exists (inl exc), ∅, []. intros st.
    unfold script, bind. rewrite Hm. by rewrite state_eta. }
  destruct (listdir W questionnaires_dir) as [exc|entries] eqn:Hl.
  { exists (inl exc), ∅, []. intros st.
    unfold script, bind, call. rewrite Hm, Hl. by rewrite state_eta. }
  destruct (for_each_effect W (docx_files entries))
    as (r & D & lines & Hrun & _).
  destruct r as [exc|[]].
  { exists (inl exc), D, lines. intros st.
    rewrite (script_loop _ _ _ Hm Hl). unfold bind. by rewrite Hrun. }
  destruct (print_effect W summary_line) as (r' & lines' & Hprint & _).
  exists r', D, (lines ++ lines'). intros st.
  rewrite (script_loop _ _ _ Hm Hl). unfold bind. rewrite Hrun, Hprint.
  cbn [fs console]. by rewrite <- app_assoc.
Qed.

(** ** Status lines *)

Lemma status_of_tag (e line : str) :
  status_of e line → is_ok_line line = negb (is_error_line line).
Proof. by intros [->|[exc ->]]. Qed.

Lemma status_count (l lines : list str) :
  Forall2 status_of l lines →
  (length (List.filter is_ok_line lines)
   + length (List.filter is_error_line lines) = length l)%nat.
Proof.
  induction 1 as [|e line l lines Hs _ IH]; [done|].
  cbn [List.filter]. rewrite (status_of_tag _ _ Hs).
  destruct (is_error_line line); cbn [negb length]; lia.
Qed.

Lemma filter_snoc_false {A} (f : A → bool) (l : list A) (x : A) :
  f x = false → List.filter f (l ++ [x]) = List.filter f l.
Proof.
  intros H. rewrite List.filter_app. cbn [List.filter]. rewrite H.
  by rewrite app_nil_r.
Qed.

Lemma error_line_not_ok (e : str) (exc : Exception) :
  error_line e exc ≠ ok_line e.
Proof. discriminate. Qed.

(** ** Selection *)



(** With every print succeeding, what the run prints. *)
Lemma script_prints (W : World) (entries : list str) (st : State) :
  makedirs_exc W output_dir = None →
  listdir W questionnaires_dir = inr entries →
  (∀ line, print_exc W line = None) →
  fst (script W st) = inr tt
  ∧ ∃ lines, console (snd (script W st)) = console st ++ lines ++ [summary_line]
             ∧ Forall2 status_of (docx_files entries) lines.
Proof.
  intros Hm Hl Hp.
  destruct (for_each_effect W (docx_files entries))
    as (r & D & lines & Hrun & (l1 & l2 & Hll & Hs & Hl2) & _ & Hok).
  rewrite (Hok Hp) in *. rewrite (Hl2 eq_refl), app_nil_r in Hll. subst l1.
  rewrite (script_loop _ _ _ Hm Hl). unfold bind. rewrite Hrun, print_run, Hp.
  cbn [fst snd console]. split; [done|].
  exists lines. split; [by rewrite <- app_assoc|done].
Qed.

(** ** The claims about the file name *)

(** C1 (the script departs from it): the output name should come from
    replacing the trailing [.docx] only, so that [my.docx.docx] gives
    [my.docx.txt]; line 35 replaces every occurrence, and gives
    [my.txt.txt].  [Survey1.docx] does give [Survey1.txt]. *)
Theorem output_filename_mid_name :
  output_filename (lit "Survey1.docx") = lit "Survey1.txt"
  ∧ output_filename (lit "my.docx.docx") = lit "my.txt.txt"
  ∧ output_filename (lit "my.docx.docx") ≠ lit "my.docx.txt".
Proof. split; [reflexivity | split; [reflexivity | discriminate]]. Qed.

(** C3 (the script departs from it): distinct selected names should give
    distinct output names; [a.docx.docx] and [a.txt.docx] are both selected
    and both give [a.txt.txt]. *)
Theorem output_filename_collision :
  lit "a.docx.docx" ≠ lit "a.txt.docx"
  ∧ docx_files [lit "a.docx.docx"; lit "a.txt.docx"]
    = [lit "a.docx.docx"; lit "a.txt.docx"]
  ∧ output_filename (lit "a.docx.docx") = lit "a.txt.txt"
  ∧ output_filename (lit "a.txt.docx") = lit "a.txt.txt".
Proof. split; [discriminate | repeat split]. Qed.

(** ** Success and failure of one iteration *)

Lemma process_file_ok (W : World) (e : str) (doc : document) (st : State) :
  Document W (path_join questionnaires_dir e) = inr doc →
  open_exc W (output_path e) = None →
  (∀ k : nat, (k < 4)%nat → write_exc W (output_path e) k = None) →
  close_exc W (output_path e) = None →
  print_exc W (ok_line e) = None →
  process_file W e st
  = (inr tt, {| fs := <[output_path e := file_text doc]> (fs st);
                console := console st ++ [ok_line e] |}).
Proof.
  intros Hd Ho Hk Hc Hp.
  by rewrite process_file_run, Hd, Ho, (block_result_ok _ _ _ Hk Hc), Hp.
Qed.

Lemma process_file_parse_error (W : World) (e : str) (exc : Exception)
    (st : State) :
  Document W (path_join questionnaires_dir e) = inl exc →
  print_exc W (error_line e exc) = None →
  process_file W e st
  = (inr tt, {| fs := fs st; console := console st ++ [error_line e exc] |}).
Proof. intros Hd Hp. by rewrite process_file_run, Hd, print_run, Hp. Qed.

Lemma handler_not_ok (W : World) (e : str) (exc : Exception) (st : State)
    (out : list str) :
  console st = out →
  console (snd (print W (error_line e exc) st)) ≠ out ++ [ok_line e].
Proof.
  intros <-. rewrite print_run.
  destruct (print_exc W (error_line e exc)); cbn [snd console]; intros H.
  - rewrite <- (app_nil_r (console st)) in H at 1.
    by apply app_inv_head in H.
  - apply app_inv_head in H. destruct (error_line_not_ok e exc). congruence.
Qed.

(** The success line is printed only by an iteration that went through. *)
Lemma ok_printed (W : World) (e : str) (st : State) :
  console (snd (process_file W e st)) = console st ++ [ok_line e] →
  ∃ doc, Document W (path_join questionnaires_dir e) = inr doc
         ∧ process_file W e st
           = (inr tt, {| fs := <[output_path e := file_text doc]> (fs st);
                         console := console st ++ [ok_line e] |}).
Proof.
  rewrite process_file_run.
  destruct (Document W (path_join questionnaires_dir e)) as [exc|doc].
  { intros H. by apply (handler_not_ok W e exc st (console st)) in H. }
  destruct (open_exc W (output_path e)) as [exc|].
  { intros H. by apply (handler_not_ok W e exc st (console st)) in H. }
  cbn zeta.
  destruct (fst (block_result W (output_path e) doc)) as [exc|[]] eqn:Hb.
  { intros H. by apply (handler_not_ok W e exc _ (console st)) in H. }
  destruct (print_exc W (ok_line e)) as [exc|].
  { intros H. by apply (handler_not_ok W e exc _ (console st)) in H. }
  intros _. exists doc. split; [done|].
  cbn [fs console]. by rewrite (block_complete _ _ _ Hb).
Qed.

(** ** The claims about one file *)

(** C6: a successfully processed document leaves a file that is the header
    line [=== PARAGRAPHS ===], the paragraph texts joined by newlines, a
    blank line, the header line [=== TABLES ===] and the row-lines joined
    by newlines, with nothing after the last row-line; without non-empty
    paragraphs and without rows the file is there and holds the two headers
    only.  A document is successfully processed when its success line is
    printed, which happens when parsing, opening, the four writes, the
    close and that print all succeed. *)
Theorem output_file_structure (W : World) (e : str) (st : State) :
  let text := fun doc =>
    lit "=== PARAGRAPHS ===" ++ nl ++ Py.join nl (full_text doc)
    ++ nl ++ nl ++ lit "=== TABLES ===" ++ nl ++ Py.join nl (tables_text doc) in
  (∀ doc,
     Document W (path_join questionnaires_dir e) = inr doc →
     open_exc W (output_path e) = None →
     (∀ k : nat, (k < 4)%nat → write_exc W (output_path e) k = None) →
     close_exc W (output_path e) = None →
     print_exc W (ok_line e) = None →
     process_file W e st
     = (inr tt, {| fs := <[output_path e := text doc]> (fs st);
                   console := console st ++ [ok_line e] |}))
  ∧ (console (snd (process_file W e st)) = console st ++ [ok_line e] →
     ∃ doc, Document W (path_join questionnaires_dir e) = inr doc
            ∧ fs (snd (process_file W e st)) !! output_path e
              = Some (text doc))
  ∧ (∀ doc rows r, tables_text doc = rows ++ [r] → ∃ pre, text doc = pre ++ r)
  ∧ (∀ doc,
       Forall (λ p, Py.strip p = []) (paragraphs doc) →
       concat (tables doc) = [] →
       text doc
       = lit "=== PARAGRAPHS ===" ++ nl ++ nl ++ nl ++ lit "=== TABLES ===" ++ nl).
Proof.
  intros text. split; [|split; [|split]].
  - intros doc Hd Ho Hk Hc Hp.
    rewrite (process_file_ok _ _ _ _ Hd Ho Hk Hc Hp). reflexivity.
  - intros (doc & Hd & ->)%ok_printed. exists doc. split; [done|].
    cbn [snd fs]. rewrite lookup_insert_eq. reflexivity.
  - intros doc rows r Hr. unfold text. rewrite Hr.
    destruct (join_last nl rows r) as [pre ->].
    eexists. rewrite !app_assoc. reflexivity.
  - intros doc Hp Ht. unfold text.
    rewrite tables_text_map, Ht, full_text_filter.
    replace (List.filter Py.truthy (List.map Py.strip (paragraphs doc)))
      with (@nil str); [done|].
    induction Hp as [|p ps Hp _ IH]; [done|].
    cbn [List.map List.filter]. by rewrite Hp.
Qed.

Lemma output_file_structure_witness :
  process_file plain_world (lit "Survey1.docx") fresh
  = (inr tt,
     {| fs := <[output_path (lit "Survey1.docx") :=
                 lit "=== PARAGRAPHS ===" ++ nl ++ lit "Q1" ++ nl ++ lit "Q2"
                 ++ nl ++ nl ++ lit "=== TABLES ===" ++ nl
                 ++ lit "a | b | c" ++ nl ++ lit "x"]> ∅;
        console := [lit "[OK] Extracted: Survey1.docx"] |}).
Proof.
  apply (proj1 (output_file_structure plain_world (lit "Survey1.docx") fresh)
           survey).
  - vm_compute. reflexivity.
  - reflexivity.
  - intros k _. reflexivity.
  - reflexivity.
  - reflexivity.
Defined.

(** C7, as the script has it: an entry that fails to open or parse leaves
    the files as they were, and its line
    [[ERROR] Error extracting <name>: <description>] is given to [print].
    When that print succeeds the loop goes on with the entries after it,
    and an entry after it that goes through gets its file and its [[OK]]
    line.  When that print raises, no line is printed and the loop ends
    there with the exception. *)
Theorem parse_failure_isolated (W : World) (e : str) (exc : Exception)
    (before after : list str) (st : State) :
  Document W (path_join questionnaires_dir e) = inl exc →
  fs (snd (process_file W e st)) = fs st
  ∧ (print_exc W (error_line e exc) = None →
     process_file W e st
     = (inr tt,
        {| fs := fs st;
           console := console st
             ++ [lit "[ERROR]" ++ lit " Error extracting " ++ e ++ lit ": "
                 ++ str_of exc] |})
     ∧ (fst (for_each before (process_file W) st) = inr tt →
        for_each (before ++ e :: after) (process_file W) st
        = for_each after (process_file W)
            (let st' := snd (for_each before (process_file W) st) in
             {| fs := fs st';
                console := console st' ++ [error_line e exc] |}))
     ∧ (∀ e' doc',
          Document W (path_join questionnaires_dir e') = inr doc' →
          open_exc W (output_path e') = None →
          (∀ k : nat, (k < 4)%nat → write_exc W (output_path e') k = None) →
          close_exc W (output_path e') = None →
          print_exc W (ok_line e') = None →
          for_each [e; e'] (process_file W) st
          = (inr tt,
             {| fs := <[output_path e' := file_text doc']> (fs st);
                console := console st ++ [error_line e exc; ok_line e'] |})))
  ∧ (∀ exc', print_exc W (error_line e exc) = Some exc' →
             for_each (e :: after) (process_file W) st = (inl exc', st)).
Proof.
  intros Hd. split; [|split].
  - by rewrite process_file_fs, Hd.
  - intros Hp. split; [|split].
    + by rewrite (process_file_parse_error _ _ _ _ Hd Hp).
    + intros Hb. rewrite for_each_app.
      destruct (for_each before (process_file W) st) as [[?|[]] st'];
        [done|].
      cbn [for_each snd]. unfold bind.
      by rewrite (process_file_parse_error _ _ _ _ Hd Hp).
    + intros e' doc' Hd' Ho' Hk' Hc' Hp'. cbn [for_each]. unfold bind, ret.
      rewrite (process_file_parse_error _ _ _ _ Hd Hp).
      rewrite (process_file_ok _ _ _ _ Hd' Ho' Hk' Hc' Hp').
      cbn [fs console]. by rewrite <- app_assoc.
  - intros exc' Hp. cbn [for_each]. unfold bind.
    by rewrite process_file_run, Hd, print_run, Hp.
Qed.

Lemma parse_failure_isolated_witness :
  for_each [lit "broken.docx"; lit "Survey1.docx"] (process_file plain_world) fresh
  = (inr tt,
     {| fs := <[output_path (lit "Survey1.docx") := file_text survey]> ∅;
        console := [] ++ [error_line (lit "broken.docx") bad_zip;
                          ok_line (lit "Survey1.docx")] |}).
Proof.
  apply (proj1 (proj2 (parse_failure_isolated plain_world (lit "broken.docx")
           bad_zip [] [] fresh eq_refl)) eq_refl).
  - vm_compute. reflexivity.
  - reflexivity.
  - intros k _. reflexivity.
  - reflexivity.
  - reflexivity.
Defined.

(** C7 as stated fails: on a console that cannot encode the entry's name
    the error line of a broken document is not printed, and the exception
    of the print ends the batch before the good document after it. *)
Lemma error_line_unprintable :
  Document latin1_world (path_join questionnaires_dir snowman) = inl bad_zip
  ∧ for_each [snowman; lit "Survey1.docx"] (process_file latin1_world) fresh
    = (inl cannot_encode, fresh)
  ∧ fst (process_file latin1_world (lit "Survey1.docx") fresh) = inr tt.
Proof. split; [|split]; vm_compute; reflexivity. Qed.

(** C2, as the script has it: a failure inside the guard leaves the
    iteration only when the print of its error line raises too.  A failure
    to open or parse the document, or to open the output file, comes before
    any write and leaves the files as they were.  A failure of a write or
    of the close of the output file is caught by the same guard, after the
    file was created, and the file is left with a beginning of the complete
    text. *)
Theorem per_file_guard (W : World) (e : str) (st : State) :
  ((∀ exc, print_exc W (error_line e exc) = None) →
   fst (process_file W e st) = inr tt)
  ∧ (∀ exc,
       Document W (path_join questionnaires_dir e) = inl exc →
       fs (snd (process_file W e st)) = fs st)
  ∧ (∀ doc exc,
       Document W (path_join questionnaires_dir e) = inr doc →
       open_exc W (output_path e) = Some exc →
       fs (snd (process_file W e st)) = fs st)
  ∧ (∀ doc exc,
       Document W (path_join questionnaires_dir e) = inr doc →
       open_exc W (output_path e) = None →
       fst (write_output W (output_path e) doc st) = inl exc →
       print_exc W (error_line e exc) = None →
       fst (process_file W e st) = inr tt
       ∧ console (snd (process_file W e st))
         = console st ++ [error_line e exc]
       ∧ ∃ text rest,
           fs (snd (process_file W e st))
           = <[output_path e := text]> (fs st)
           ∧ file_text doc = text ++ rest).
Proof.
  split; [|split; [|split]].
  - intros Hp.
    destruct (process_file_effect W e) as (r & d & lines & Hrun & _ & _ & Hok).
    by rewrite Hrun, (Hok Hp).
  - intros exc Hd. by rewrite process_file_fs, Hd.
  - intros doc exc Hd Ho. by rewrite process_file_fs, Hd, Ho.
  - intros doc exc Hd Ho Hw Hp.
    rewrite (write_output_run W _ doc st Ho) in Hw. cbn [fst] in Hw.
    rewrite process_file_run, Hd, Ho, Hw, print_run, Hp.
    cbn [fst snd fs console]. split; [done|split; [done|]].
    destruct (block_prefix W (output_path e) doc) as [rest Hrest].
    by exists (snd (block_result W (output_path e) doc)), rest.
Qed.

Lemma per_file_guard_witness :
  fst (process_file disk_full_world (lit "Survey1.docx") fresh) = inr tt
  ∧ console (snd (process_file disk_full_world (lit "Survey1.docx") fresh))
    = console fresh ++ [error_line (lit "Survey1.docx") no_space]
  ∧ ∃ text rest,
      fs (snd (process_file disk_full_world (lit "Survey1.docx") fresh))
      = <[output_path (lit "Survey1.docx") := text]> (fs fresh)
      ∧ file_text survey = text ++ rest.
Proof.
  apply (proj2 (proj2 (proj2
           (per_file_guard disk_full_world (lit "Survey1.docx") fresh)))
           survey no_space).
  - reflexivity.
  - reflexivity.
  - vm_compute. reflexivity.
  - reflexivity.
Defined.

(** C2 as stated fails twice.  On a disk that fills up at the third write
    the failure is caught by the guard of the iteration, after the output
    file was created, and the file stays, partially written.  On a console
    that cannot encode the entry's name the failure to parse a document
    leaves the iteration, as the exception of the handler's print. *)
Lemma write_failure_after_open :
  (let run := process_file disk_full_world (lit "Survey1.docx") fresh in
   fst run = inr tt
   ∧ console (snd run)
     = [lit "[ERROR] Error extracting Survey1.docx: [Errno 28] No space left on device"]
   ∧ fs fresh !! output_path (lit "Survey1.docx") = None
   ∧ fs (snd run) !! output_path (lit "Survey1.docx")
     = Some (lit "=== PARAGRAPHS ===" ++ nl ++ lit "Q1" ++ nl ++ lit "Q2" ++ nl))
  ∧ process_file latin1_world snowman fresh = (inl cannot_encode, fresh).
Proof.
  split; [|vm_compute; reflexivity].
  cbn zeta. split; [|split; [|split]]; vm_compute; reflexivity.
Qed.

(** ** The claims about the whole run *)



(** C9, as the script has it: when no print raises, every selected entry
    gets one status line, so the [[OK]] lines and the [[ERROR]] lines
    printed by a run are together as many as the entries whose name ends in
    [.docx]. *)
Theorem status_line_count (W : World) (entries : list str) (fs0 : gmap str str) :
  makedirs_exc W output_dir = None →
  listdir W questionnaires_dir = inr entries →
  (∀ line, print_exc W line = None) →
  let out := console (snd (script W {| fs := fs0; console := [] |})) in
  (∃ lines, out = lines ++ [summary_line]
            ∧ Forall2 status_of
                (List.filter (Py.endswith (lit ".docx")) entries) lines)
  ∧ (length (List.filter is_ok_line out)
     + length (List.filter is_error_line out)
     = length (List.filter (Py.endswith (lit ".docx")) entries))%nat.
Proof.
  intros Hm Hl Hp out.
  destruct (script_prints W entries {| fs := fs0; console := [] |} Hm Hl Hp)
    as (_ & lines & Hout & Hs).
  cbn [console app] in Hout. fold out in Hout. rewrite Hout.
  split; [by exists lines|].
  rewrite !filter_snoc_false by reflexivity. by apply status_count.
Qed.

Lemma status_line_count_witness :
  let out := console (snd (script plain_world {| fs := ∅; console := [] |})) in
  (length (List.filter is_ok_line out)
   + length (List.filter is_error_line out)
   = length (List.filter (Py.endswith (lit ".docx"))
               [lit "broken.docx"; lit "notes.txt"; lit "Survey1.docx"]))%nat.
Proof.
  apply (status_line_count plain_world
           [lit "broken.docx"; lit "notes.txt"; lit "Survey1.docx"] ∅);
    reflexivity.
Defined.

(** C9 as stated fails: on a console that cannot encode the name of the
    second of two selected entries, the run prints one status line and
    ends with the exception of the print. *)
Lemma status_lines_unprintable :
  let run := script latin1_world {| fs := ∅; console := [] |} in
  listdir latin1_world questionnaires_dir = inr [lit "Survey1.docx"; snowman]
  ∧ length (List.filter (Py.endswith (lit ".docx")) [lit "Survey1.docx"; snowman])
    = 2%nat
  ∧ fst run = inl cannot_encode
  ∧ console (snd run) = [lit "[OK] Extracted: Survey1.docx"]
  ∧ (length (List.filter is_ok_line (console (snd run)))
     + length (List.filter is_error_line (console (snd run))) = 1)%nat.
Proof.
  cbn zeta. split; [|split; [|split; [|split]]]; vm_compute; reflexivity.
Qed.

(** C10: a second run in the same environment, over the files the first
    run left, ends exactly as the first did, with the same files holding
    the same text; and the text written for a document is a function of
    its paragraphs and tables. *)
Theorem rerun_identical (W : World) (fs0 : gmap str str) :
  (let run1 := script W {| fs := fs0; console := [] |} in
   script W {| fs := fs (snd run1); console := [] |} = run1)
  ∧ (∀ d1 d2, paragraphs d1 = paragraphs d2 → tables d1 = tables d2 →
              file_text d1 = file_text d2).
Proof.
  split.
  - destruct (script_effect W) as (r & D & lines & Hrun).
    cbn zeta. rewrite !Hrun. cbn [snd fs console].
    by rewrite (assoc_L (∪)), (idemp_L (∪)).
  - intros [ps1 ts1] [ps2 ts2]. cbn [paragraphs tables]. by intros -> ->.
Qed.

Lemma rerun_identical_witness :
  script plain_world
    {| fs := fs (snd (script plain_world {| fs := ∅; console := [] |}));
       console := [] |}
  = script plain_world {| fs := ∅; console := [] |}.
Proof. apply (rerun_identical plain_world ∅). Defined.

Example strip_ex : Py.strip (lit "  a b  ") = lit "a b".
Proof. reflexivity. Qed.

Example replace_ex : Py.replace (lit "ab") (lit "x") (lit "cabababd") = lit "cxxxd".
Proof. reflexivity. Qed.

Example replace_empty_ex : Py.replace [] (lit "-") (lit "abc") = lit "-a-b-c-".
Proof. reflexivity. Qed.

Example join_ex : Py.join (lit ", ") [lit "a"; lit "b"] = lit "a, b".
Proof. reflexivity. Qed.

Example endswith_ex : Py.endswith (lit ".docx") (lit "A.DOCX") = false.
Proof. reflexivity. Qed.

(** A whole run: the broken document is reported, the unrelated file is
    passed over, the good document is extracted. *)
Example batch_run :
  console (snd (script plain_world fresh))
  = [ lit "[ERROR] Error extracting broken.docx: File is not a zip file";
      lit "[OK] Extracted: Survey1.docx";
      nl ++ lit "All extracted files saved to: C:\Users\rinai\stat-q\extracted_questionnaires" ].
Proof. vm_compute. reflexivity. Qed.

(** A full disk met at the close: the four writes returned, the error line
    is printed and the file is there, empty. *)
Example flush_failure :
  process_file flush_fail_world (lit "Survey1.docx") fresh
  = (inr tt,
     {| fs := {[output_path (lit "Survey1.docx") := []]};
        console := [error_line (lit "Survey1.docx") no_space] |}).
Proof.
  rewrite process_file_run. cbn [Document open_exc flush_fail_world].
  unfold block_result. cbn [close_exc flush_fail_world snd fst].
  rewrite print_run. cbn [print_exc flush_fail_world fs console app].
  reflexivity.
Qed.

(** * Further properties of the script *)

(** ** The derived file name, in general *)

Lemma txt_lit : lit ".txt" = [46; 116; 120; 116].
Proof. reflexivity. Qed.

Lemma startswith_longer (p s r : str) :
  Py.startswith p s = true → Py.startswith p (s ++ r) = true.
Proof.
  intros [t ->]%startswith_inv. rewrite <- app_assoc. apply startswith_app.
Qed.

Lemma output_filename_hit (s : str) :
  output_filename (lit ".docx" ++ s) = lit ".txt" ++ output_filename s.
Proof. rewrite !output_filename_scan. by apply replace_from_hit. Qed.

Lemma output_filename_miss (c : N) (s : str) :
  Py.startswith (lit ".docx") (c :: s) = false →
  output_filename (c :: s) = c :: output_filename s.
Proof. rewrite !output_filename_scan. apply replace_from_miss. Qed.

Lemma output_filename_split (a b : str) :
  output_filename (a ++ lit ".docx" ++ b)
  = output_filename a ++ lit ".txt" ++ output_filename b.
Proof.
  remember (length a) as n eqn:Hn. revert a Hn.
  induction n as [n IH] using lt_wf_ind. intros a Hn.
  destruct a as [|c a].
  - by rewrite (output_filename_first [] b).
  - destruct (Py.startswith (lit ".docx") (c :: a)) eqn:E.
    + destruct (startswith_inv _ _ E) as [t Ht]. rewrite Ht.
      rewrite <- app_assoc, !output_filename_hit.
      rewrite (IH (length t)) with (a := t); [by rewrite <- app_assoc| |done].
      rewrite Hn, Ht, length_app. rewrite docx_lit. cbn [length]. lia.
    + change ((c :: a) ++ lit ".docx" ++ b) with (c :: (a ++ lit ".docx" ++ b)).
      rewrite !output_filename_miss; [| done |].
      * rewrite (IH (length a)) with (a := a); [done| |done].
        rewrite Hn. cbn [length]. lia.
      * apply not_true_is_false. intros E'.
        apply (docx_no_border (c :: a)) in E' as [?|E']; [done|congruence].
Qed.

(** X1: the replacement of line 35 works through a name occurrence by
    occurrence: around any occurrence of [.docx] the two sides are renamed
    on their own. *)
Theorem output_filename_app (a b : str) :
  output_filename (a ++ lit ".docx" ++ b)
  = output_filename a ++ lit ".txt" ++ output_filename b.
Proof. apply output_filename_split. Qed.

(** X2: every selected entry gets a name that ends in [.txt]: the stem,
    renamed, followed by [.txt]. *)
Theorem selected_output_txt (e : str) :
  Py.endswith (lit ".docx") e = true →
  Py.endswith (lit ".txt") (output_filename e) = true
  ∧ ∃ stem, e = stem ++ lit ".docx"
            ∧ output_filename e = output_filename stem ++ lit ".txt".
Proof.
  intros [stem ->]%endswith_inv.
  assert (output_filename (stem ++ lit ".docx")
          = output_filename stem ++ lit ".txt") as Heq.
  { rewrite <- (app_nil_r (lit ".docx")) at 1.
    by rewrite output_filename_split. }
  split; [|by exists stem].
  rewrite Heq. apply endswith_app.
Qed.

Lemma selected_output_txt_witness :
  Py.endswith (lit ".txt") (output_filename (lit "my.docx.docx")) = true
  ∧ ∃ stem, lit "my.docx.docx" = stem ++ lit ".docx"
            ∧ output_filename (lit "my.docx.docx")
              = output_filename stem ++ lit ".txt".
Proof. apply (selected_output_txt (lit "my.docx.docx")). reflexivity. Defined.

(** A code point of the result other than a full stop was there in the
    name. *)
Lemma output_filename_head (s r : str) (x : N) :
  output_filename s = x :: r → x ≠ 46 →
  ∃ s', s = x :: s' ∧ output_filename s' = r.
Proof.
  destruct s as [|c s]; [done|]. intros H Hx.
  destruct (Py.startswith (lit ".docx") (c :: s)) eqn:E.
  - destruct (startswith_inv _ _ E) as [t Ht].
    rewrite Ht, output_filename_hit, txt_lit in H.
    injection H as H _. congruence.
  - rewrite (output_filename_miss _ _ E) in H.
    injection H as -> <-. by exists s.
Qed.

Lemma startswith_docx_renamed (c : N) (s : str) :
  Py.startswith (lit ".docx") (c :: output_filename s) = true →
  Py.startswith (lit ".docx") (c :: s) = true.
Proof.
  intros [r Hr]%startswith_inv. rewrite docx_lit in Hr.
  injection Hr as -> Hr.
  apply output_filename_head in Hr as (s1 & -> & Hr); [|done].
  apply output_filename_head in Hr as (s2 & -> & Hr); [|done].
  apply output_filename_head in Hr as (s3 & -> & Hr); [|done].
  apply output_filename_head in Hr as (s4 & -> & Hr); [|done].
  apply (startswith_app (lit ".docx") s4).
Qed.

Lemma contains_after_txt (r : str) :
  Py.contains (lit ".docx") (lit ".txt" ++ r) = Py.contains (lit ".docx") r.
Proof. reflexivity. Qed.

Lemma output_filename_id (s : str) :
  Py.contains (lit ".docx") s = false → output_filename s = s.
Proof.
  induction s as [|c s IH]; [done|].
  intros [Hs Hc]%contains_cons.
  by rewrite (output_filename_miss _ _ Hs), IH.
Qed.

(** X3: no [.docx] is left in a derived name, whatever the name was, so
    deriving again changes nothing. *)
Theorem output_filename_clean (s : str) :
  Py.contains (lit ".docx") (output_filename s) = false
  ∧ output_filename (output_filename s) = output_filename s.
Proof.
  assert (Py.contains (lit ".docx") (output_filename s) = false) as H.
  { remember (length s) as n eqn:Hn. revert s Hn.
    induction n as [n IH] using lt_wf_ind. intros s Hn.
    destruct s as [|c s]; [done|].
    destruct (Py.startswith (lit ".docx") (c :: s)) eqn:E.
    - destruct (startswith_inv _ _ E) as [t Ht]. rewrite Ht.
      rewrite output_filename_hit, contains_after_txt.
      apply (IH (length t)); [|done].
      rewrite Hn, Ht, length_app, docx_lit. cbn [length]. lia.
    - rewrite (output_filename_miss _ _ E). cbn [Py.contains].
      apply orb_false_intro.
      + apply not_true_is_false. intros E'.
        apply startswith_docx_renamed in E'. congruence.
      + apply (IH (length s)); [|done]. rewrite Hn. cbn [length]. lia. }
  split; [done|]. by apply output_filename_id.
Qed.

(** ** The extracted texts *)

Lemma strip_fixed (t : str) :
  (∀ c, head t = Some c → Py.isspace c = false) →
  (∀ c, last t = Some c → Py.isspace c = false) →
  Py.strip t = t.
Proof.
  intros Hh Hl. symmetry. apply trimmed_of_strip.
  exists [], []. by rewrite app_nil_r.
Qed.

Lemma strip_strip (s : str) : Py.strip (Py.strip s) = Py.strip s.
Proof.
  destruct (strip_trimmed s) as (l & r & _ & _ & _ & Hh & Hl).
  by apply strip_fixed.
Qed.

Lemma filter_strip_fixed (l : list str) :
  Forall (λ t, Py.truthy t = true ∧ Py.strip t = t) l →
  List.filter Py.truthy (List.map Py.strip l) = l.
Proof.
  induction 1 as [|t l [Ht Hs] _ IH]; [done|].
  cbn [List.map List.filter]. by rewrite Hs, Ht, IH.
Qed.

Lemma filter_strip_items (ps : list str) :
  Forall (λ t, Py.truthy t = true ∧ Py.strip t = t)
    (List.filter Py.truthy (List.map Py.strip ps)).
Proof.
  induction ps as [|p ps IH]; [constructor|].
  cbn [List.map List.filter].
  destruct (Py.truthy (Py.strip p)) eqn:E; [|done].
  constructor; [|done]. split; [done | apply strip_strip].
Qed.

(** X4: what the paragraphs loop collects is never empty and neither
    starts nor ends with white space; there are at most as many texts as
    paragraphs; and extracting again from the texts gives them back. *)
Theorem full_text_items (doc : document) :
  Forall (λ t, t ≠ []
               ∧ (∀ c, head t = Some c → Py.isspace c = false)
               ∧ (∀ c, last t = Some c → Py.isspace c = false))
    (full_text doc)
  ∧ (length (full_text doc) ≤ length (paragraphs doc))%nat
  ∧ full_text {| paragraphs := full_text doc; tables := tables doc |}
    = full_text doc.
Proof.
  rewrite !full_text_filter. cbn [paragraphs]. repeat apply conj.
  - induction (paragraphs doc) as [|p ps IH]; [constructor|].
    cbn [List.map List.filter].
    destruct (Py.truthy (Py.strip p)) eqn:E; [|done].
    constructor; [|done].
    destruct (strip_trimmed p) as (l & r & _ & _ & _ & Hh & Hl).
    split; [by destruct (Py.strip p)|done].
  - rewrite <- (length_map Py.strip (paragraphs doc)).
    apply filter_length_le.
  - apply filter_strip_fixed, filter_strip_items.
Qed.

Lemma join_blank (sep : str) (n : nat) :
  Py.join sep (replicate n []) = concat (replicate (n - 1) sep).
Proof.
  induction n as [|[|n] IH]; [done|done|].
  change (Py.join sep (replicate (S (S n)) []))
    with (sep ++ Py.join sep (replicate (S n) [])).
  rewrite IH.
  replace (S (S n) - 1)%nat with (S n) by lia.
  replace (S n - 1)%nat with n by lia.
  done.
Qed.

Lemma map_strip_blank (row : list str) :
  Forall (λ c, forallb Py.isspace c = true) row →
  List.map Py.strip row = replicate (length row) [].
Proof.
  induction 1 as [|c row Hc _ IH]; [done|].
  cbn [List.map length replicate]. by rewrite (strip_space c Hc), IH.
Qed.

(** X5: the tables loop gives one row-line per row, whatever the row
    holds, so there are as many row-lines as rows in all tables; the
    row-lines of two runs of tables are those of the first followed by
    those of the second; and a row of blank cells is not dropped: it gives
    the separators alone. *)
Theorem tables_text_count (doc : document) :
  length (tables_text doc) = sum_list_with length (tables doc)
  ∧ (∀ t1 t2,
       tables doc = t1 ++ t2 →
       tables_text doc
       = tables_text {| paragraphs := paragraphs doc; tables := t1 |}
         ++ tables_text {| paragraphs := paragraphs doc; tables := t2 |})
  ∧ (∀ row,
       tables doc = [[row]] →
       Forall (λ c, forallb Py.isspace c = true) row →
       tables_text doc = [concat (replicate (length row - 1) (lit " | "))]).
Proof.
  repeat apply conj.
  - rewrite tables_text_map, length_map.
    induction (tables doc) as [|t ts IH]; [done|].
    cbn [concat sum_list_with]. by rewrite length_app, IH.
  - intros t1 t2 Ht. rewrite !tables_text_map, Ht. cbn [tables].
    by rewrite concat_app, map_app.
  - intros row Ht Hrow. rewrite tables_text_map, Ht. cbn [concat app List.map].
    by rewrite (map_strip_blank row Hrow), join_blank.
Qed.

Lemma tables_text_count_witness :
  let doc := {| paragraphs := []; tables := [[[lit " "; []; [9; 10]]]] |} in
  tables_text doc = [lit " | " ++ lit " | "].
Proof.
  intros doc.
  apply (proj2 (proj2 (tables_text_count doc)) [lit " "; []; [9; 10]]).
  - reflexivity.
  - repeat constructor.
Defined.


(** ** The success line *)

(** X6: the success line is printed for an entry only when its document
    was parsed and its output file holds the complete text. *)
Theorem ok_line_sound (W : World) (e : str) (st : State) :
  console (snd (process_file W e st)) = console st ++ [ok_line e] →
  ∃ doc, Document W (path_join questionnaires_dir e) = inr doc
         ∧ fs (snd (process_file W e st)) !! output_path e
           = Some (file_text doc).
Proof.
  intros (doc & Hd & ->)%ok_printed. exists doc. split; [done|].
  cbn [snd fs]. apply lookup_insert_eq.
Qed.

Lemma ok_line_sound_witness :
  ∃ doc, Document plain_world (path_join questionnaires_dir (lit "Survey1.docx"))
         = inr doc
         ∧ fs (snd (process_file plain_world (lit "Survey1.docx") fresh))
             !! output_path (lit "Survey1.docx")
           = Some (file_text doc).
Proof.
  apply (ok_line_sound plain_world (lit "Survey1.docx") fresh).
  vm_compute. reflexivity.
Defined.

(** ** What a run leaves alone *)

Lemma script_keeps_path (W : World) (st : State) (p : str) :
  (∀ entries e, listdir W questionnaires_dir = inr entries →
                In e (docx_files entries) → p ≠ output_path e) →
  fs (snd (script W st)) !! p = fs st !! p.
Proof.
  intros Hp. unfold script, bind, call.
  destruct (makedirs_exc W output_dir) as [exc|]; [done|]. cbn [check ret].
  destruct (listdir W questionnaires_dir) as [exc|entries] eqn:Hl; [done|].
  pose proof (for_each_frame W (docx_files entries) st p
                (fun e => Hp entries e eq_refl)) as Hf.
  destruct (for_each (docx_files entries) (process_file W) st)
    as [[exc|[]] st']; [done|].
  cbn [snd] in Hf. by rewrite print_fs.
Qed.

(** X7: a run changes no file but the output files of the selected
    entries: a path that is the output path of none of them holds after the
    run what it held before. *)
Theorem script_frame (W : World) (st : State) (p : str) :
  (∀ entries e, listdir W questionnaires_dir = inr entries →
                In e (docx_files entries) → p ≠ output_path e) →
  fs (snd (script W st)) !! p = fs st !! p.
Proof. apply script_keeps_path. Qed.

Lemma script_frame_witness :
  fs (snd (script plain_world fresh)) !! path_join output_dir (lit "notes.txt")
  = fs fresh !! path_join output_dir (lit "notes.txt").
Proof.
  apply (script_frame plain_world fresh (path_join output_dir (lit "notes.txt"))).
  intros entries e [= <-] He.
  cbn in He. destruct He as [<-|[<-|[]]]; discriminate.
Defined.

Lemma source_path_not_output (name e : str) :
  path_join questionnaires_dir name ≠ output_path e.
Proof. discriminate. Qed.

(** X8: a run never writes into the source directory: whatever the
    environment does, every path under it holds after the run what it held
    before. *)
Theorem source_directory_untouched (W : World) (st : State) (name : str) :
  fs (snd (script W st)) !! path_join questionnaires_dir name
  = fs st !! path_join questionnaires_dir name.
Proof.
  apply script_keeps_path. intros entries e _ _. apply source_path_not_output.
Qed.

(** ** Runs as a whole *)

(** X9: when two entries that both go through (parse, open, writes, close
    and the print of the success line all succeed) derive the same output
    path, both get their success line and the one file holds the text of
    the later entry. *)
Theorem later_output_wins (W : World) (e1 e2 : str) (d1 d2 : document)
    (st : State) :
  output_path e1 = output_path e2 →
  Document W (path_join questionnaires_dir e1) = inr d1 →
  Document W (path_join questionnaires_dir e2) = inr d2 →
  open_exc W (output_path e2) = None →
  (∀ k : nat, (k < 4)%nat → write_exc W (output_path e2) k = None) →
  close_exc W (output_path e2) = None →
  print_exc W (ok_line e1) = None →
  print_exc W (ok_line e2) = None →
  for_each [e1; e2] (process_file W) st
  = (inr tt, {| fs := <[output_path e2 := file_text d2]> (fs st);
                console := console st ++ [ok_line e1; ok_line e2] |}).
Proof.
  intros Hp Hd1 Hd2 Ho Hk Hc Hp1 Hp2. cbn [for_each]. unfold bind, ret.
  rewrite (process_file_ok W e1 d1 st Hd1); rewrite ?Hp; [|done..].
  rewrite (process_file_ok W e2 d2 _ Hd2 Ho Hk Hc Hp2). cbn [fs console].
  by rewrite insert_insert_eq, <- app_assoc.
Qed.

Lemma later_output_wins_witness :
  for_each [lit "a.docx.docx"; lit "a.txt.docx"] (process_file collision_world) fresh
  = (inr tt,
     {| fs := <[output_path (lit "a.txt.docx") := file_text survey_b]> (fs fresh);
        console := console fresh
          ++ [ok_line (lit "a.docx.docx"); ok_line (lit "a.txt.docx")] |}).
Proof.
  apply (later_output_wins collision_world (lit "a.docx.docx") (lit "a.txt.docx")
           survey survey_b fresh).
  - reflexivity.
  - vm_compute. reflexivity.
  - vm_compute. reflexivity.
  - reflexivity.
  - intros k _. reflexivity.
  - reflexivity.
  - reflexivity.
  - reflexivity.
Defined.

(** X10: when [os.makedirs] or [os.listdir] raises, the script ends with
    that exception and has printed nothing and written no file.  When both
    return, no failure to parse, open, write or close ends the run: an
    exception that ends it was raised by a print, and when no print raises
    the run returns normally, having printed one line per selected entry
    and the summary line last. *)
Theorem script_outcome (W : World) (st : State) :
  match makedirs_exc W output_dir, listdir W questionnaires_dir with
  | Some exc, _ => script W st = (inl exc, st)
  | None, inl exc => script W st = (inl exc, st)
  | None, inr entries =>
      (∀ exc, fst (script W st) = inl exc →
              ∃ line, print_exc W line = Some exc)
      ∧ ((∀ line, print_exc W line = None) →
         fst (script W st) = inr tt
         ∧ ∃ lines,
             length lines
             = length (List.filter (Py.endswith (lit ".docx")) entries)
             ∧ console (snd (script W st))
               = console st ++ lines ++ [summary_line])
  end.
Proof.
  destruct (makedirs_exc W output_dir) as [exc|] eqn:Hm.
  { unfold script, bind. by rewrite Hm. }
  destruct (listdir W questionnaires_dir) as [exc|entries] eqn:Hl.
  { unfold script, bind, call. by rewrite Hm, Hl. }
  split.
  - intros exc. rewrite (script_loop W entries st Hm Hl). unfold bind.
    destruct (for_each_effect W (docx_files entries))
      as (r & D & lines & Hrun & _ & Hexc & _).
    rewrite Hrun. destruct r as [exc'|[]]; cbn [fst].
    + intros [= <-]. by apply Hexc.
    + rewrite print_run.
      destruct (print_exc W summary_line) as [exc'|] eqn:Hp; [|done].
      cbn [fst]. intros [= <-]. by exists summary_line.
  - intros Hp.
    destruct (script_prints W entries st Hm Hl Hp) as (Hr & lines & Hout & Hs).
    split; [done|]. exists lines. split; [|done].
    symmetry. apply (Forall2_length _ _ _ Hs).
Qed.

Lemma script_outcome_witness :
  fst (script plain_world fresh) = inr tt
  ∧ ∃ lines,
      length lines
      = length (List.filter (Py.endswith (lit ".docx"))
                  [lit "broken.docx"; lit "notes.txt"; lit "Survey1.docx"])
      ∧ console (snd (script plain_world fresh))
        = console fresh ++ lines ++ [summary_line].
Proof.
  apply (proj2 (script_outcome plain_world fresh)). reflexivity.
Defined.

Lemma for_each_parse_errors (W : World) (l : list str) (st : State) :
  (∀ e, In e l →
        ∃ exc, Document W (path_join questionnaires_dir e) = inl exc) →
  fs (snd (for_each l (process_file W) st)) = fs st
  ∧ ((∀ line, print_exc W line = None) →
     ∃ lines,
       length lines = length l
       ∧ Forall (λ line, is_error_line line = true) lines
       ∧ for_each l (process_file W) st
         = (inr tt, {| fs := fs st; console := console st ++ lines |})).
Proof.
  revert st. induction l as [|e l IH]; intros st Hl.
  - split; [done|]. intros _. exists [].
    split; [done|split; [constructor|]]. cbn [for_each]. unfold ret.
    destruct st. by rewrite app_nil_r.
  - destruct (Hl e) as [exc Hd]; [by left|].
    assert (∀ e', In e' l →
      ∃ exc, Document W (path_join questionnaires_dir e') = inl exc) as Hl'.
    { intros e' He'. apply Hl. by right. }
    split.
    + cbn [for_each]. unfold bind.
      pose proof (process_file_fs W e st) as Hfs. rewrite Hd in Hfs.
      destruct (process_file W e st) as [[?|[]] st1]; cbn [snd] in *; [done|].
      by rewrite (proj1 (IH st1 Hl')).
    + intros Hp.
      destruct (proj2 (IH {| fs := fs st;
                             console := console st ++ [error_line e exc] |}
                          Hl') Hp)
        as (lines & Hlen & Hlines & Hrun).
      exists (error_line e exc :: lines). split; [|split].
      * cbn [length]. by rewrite Hlen.
      * by constructor.
      * cbn [for_each]. unfold bind.
        rewrite (process_file_parse_error W e exc st Hd (Hp _)), Hrun.
        cbn [fs console]. by rewrite <- app_assoc.
Qed.

(** X11: when no selected entry can be opened or parsed, and so also when
    none is selected, the run leaves every file as it was; when moreover no
    print raises, it prints one error line per selected entry, then the
    summary line, and returns. *)
Theorem no_parse_no_write (W : World) (entries : list str) (st : State) :
  makedirs_exc W output_dir = None →
  listdir W questionnaires_dir = inr entries →
  (∀ e, In e (List.filter (Py.endswith (lit ".docx")) entries) →
        ∃ exc, Document W (path_join questionnaires_dir e) = inl exc) →
  fs (snd (script W st)) = fs st
  ∧ ((∀ line, print_exc W line = None) →
     ∃ lines,
       length lines = length (List.filter (Py.endswith (lit ".docx")) entries)
       ∧ Forall (λ line, is_error_line line = true) lines
       ∧ script W st
         = (inr tt, {| fs := fs st;
                       console := console st ++ lines ++ [summary_line] |})).
Proof.
  intros Hm Hl Hall.
  destruct (for_each_parse_errors W (docx_files entries) st Hall) as [Hfs Hrun].
  rewrite (script_loop W entries st Hm Hl). unfold bind. split.
  - destruct (for_each (docx_files entries) (process_file W) st)
      as [[?|[]] st1]; cbn [snd] in *; [done|].
    by rewrite print_fs.
  - intros Hp. destruct (Hrun Hp) as (lines & Hlen & Hlines & ->).
    exists lines. split; [done|split; [done|]].
    rewrite print_run, Hp. cbn [fs console]. by rewrite <- app_assoc.
Qed.

Lemma no_parse_no_write_witness :
  ∃ lines,
    length lines
    = length (List.filter (Py.endswith (lit ".docx"))
                [lit "broken.docx"; lit "notes.txt"])
    ∧ Forall (λ line, is_error_line line = true) lines
    ∧ script all_broken_world fresh
      = (inr tt, {| fs := fs fresh;
                    console := console fresh ++ lines ++ [summary_line] |}).
Proof.
  apply (no_parse_no_write all_broken_world
           [lit "broken.docx"; lit "notes.txt"] fresh).
  - reflexivity.
  - reflexivity.
  - intros e He. cbn in He. destruct He as [<-|[]].
    exists bad_zip. vm_compute. reflexivity.
  - reflexivity.
Defined.

(** X12: an iteration whose document was parsed either leaves the output
    file as it was or leaves in it a beginning of the complete text, the
    whole of it when the success line is printed: text that does not belong
    to the document never gets into its file. *)
Theorem output_is_prefix (W : World) (e : str) (doc : document) (st : State) :
  Document W (path_join questionnaires_dir e) = inr doc →
  fs (snd (process_file W e st)) = fs st
  ∨ ∃ text rest,
      fs (snd (process_file W e st)) = <[output_path e := text]> (fs st)
      ∧ file_text doc = text ++ rest.
Proof.
  intros Hd. rewrite process_file_fs, Hd.
  destruct (open_exc W (output_path e)); [by left|]. right.
  destruct (block_prefix W (output_path e) doc) as [rest Hrest].
  by exists (snd (block_result W (output_path e) doc)), rest.
Qed.

Lemma output_is_prefix_witness :
  fs (snd (process_file disk_full_world (lit "Survey1.docx") fresh)) = fs fresh
  ∨ ∃ text rest,
      fs (snd (process_file disk_full_world (lit "Survey1.docx") fresh))
      = <[output_path (lit "Survey1.docx") := text]> (fs fresh)
      ∧ file_text survey = text ++ rest.
Proof.
  apply (output_is_prefix disk_full_world (lit "Survey1.docx") survey fresh).
  reflexivity.
Defined.
